(** * bigchaindb_driver.driver: a shallow embedding and its properties

    The driver class [BigchainDB] and its [TransactionsEndpoint] are embedded
    as state-passing functions.  Python values are a small inductive type with
    Python's truthiness; exceptions are results in a sum; the transport the
    driver talks to is an interface (the source takes [transport_class] as a
    constructor argument). *)

From Stdlib Require Import String List ZArith Bool Arith Lia.
Import ListNotations.
Local Open Scope string_scope.
Local Open Scope list_scope.

Set Implicit Arguments.

(** ** Python values *)

#[warnings="-register-all"] Inductive PyVal : Type :=
| PyNone
| PyBool (b : bool)
| PyInt (z : Z)
| PyStr (s : string)
| PyList (l : list PyVal)
| PyDict (d : list (string * PyVal)).

(** [bool(v)] *)
Definition truthy (v : PyVal) : bool :=
  match v with
  | PyNone => false
  | PyBool b => b
  | PyInt z => negb (Z.eqb z 0)
  | PyStr s => negb (String.eqb s "")
  | PyList l => match l with [] => false | _ :: _ => true end
  | PyDict d => match d with [] => false | _ :: _ => true end
  end.

(** [v is None] *)
Definition is_None (v : PyVal) : bool :=
  match v with PyNone => true | _ => false end.

(** [isinstance(v, str)] *)
Definition isinstance_str (v : PyVal) : bool :=
  match v with PyStr _ => true | _ => false end.

(** ** Exceptions *)

(** Modelled from the spec: the module [bigchaindb_driver.exceptions] is
    imported by the driver but its text is not available; the error taxonomy
    is the one of section 7 of the specification.  The driver itself imports
    and raises only [InvalidVerifyingKey] and [InvalidSigningKey]. *)
Inductive Exc : Type :=
| InvalidVerifyingKey
| InvalidSigningKey
| MissingSigningKey
| MissingVerifyingKey
| InvalidOwnerSet
| SigningKeyMismatch
| TransportError (node : string)
| RemoteRejection (status_code : Z) (message : string).

(** ** Computations with state and exceptions

    A Python call may change the state and then raise: the state reached is
    kept in both outcomes. *)

Definition M (S A : Type) : Type := S -> S * (Exc + A).

Definition ret {S A} (a : A) : M S A := fun s => (s, inr a).

Definition raise {S A} (e : Exc) : M S A := fun s => (s, inl e).

Definition bind {S A B} (m : M S A) (k : A -> M S B) : M S B :=
  fun s =>
    match m s with
    | (s', inl e) => (s', inl e)
    | (s', inr a) => k a s'
    end.

(** A pure call that may raise. *)
Definition lift_exc {S A} (r : Exc + A) : M S A := fun s => (s, r).

Declare Scope py_scope.
Delimit Scope py_scope with py.
Notation "x <- m ;; k" := (bind m (fun x => k))
  (at level 61, m at next level, right associativity) : py_scope.
Notation "m ;;; k" := (bind m (fun _ => k))
  (at level 61, right associativity) : py_scope.
Local Open Scope py_scope.

(** ** Opaque cryptography *)

(** Modelled from the spec: signing and hashing are capabilities of an
    external library, [sign(message, private_key) -> signature] and the hash
    from which a transaction id is derived. *)
Class Crypto : Type := {
  crypto_sign : PyVal -> PyVal -> string;
  hash_data : PyVal -> string
}.

(** ** Transactions *)

(** Modelled from the spec: [bigchaindb_common.transaction.Transaction] is an
    external library; its data model and the contracts of [create],
    [transfer], [sign], [to_inputs] and [to_dict] are those of sections 3,
    4.1 and 4.2 of the specification. *)
Module Transaction.

Inductive Operation : Type := CREATE | TRANSFER.

Record Input : Type := {
  fulfills : option (string * nat);
  owners_before : list PyVal
}.

Record Output : Type := {
  owners_after : list PyVal
}.

Record t : Type := {
  operation : Operation;
  inputs : list Input;
  outputs : list Output;
  payload : PyVal;
  signatures : list string
}.

Definition is_nil {A} (l : list A) : bool :=
  match l with [] => true | _ :: _ => false end.

(** Modelled from the spec: [Transaction.create(owners_before, owners_after,
    payload)] of the external library, section 4.1: one input authorized by
    [owners_before], one output owned by [owners_after]; both non-empty. *)
Definition create (owners_before owners_after : list PyVal) (payload : PyVal)
  : Exc + t :=
  if is_nil owners_before || is_nil owners_after then inl InvalidOwnerSet
  else inr {| operation := CREATE;
              inputs := [ {| fulfills := None;
                             owners_before := owners_before |} ];
              outputs := [ {| owners_after := owners_after |} ];
              payload := payload;
              signatures := [] |}.

(** Modelled from the spec: [Transaction.transfer(inputs, owners_after)] of
    the external library, section 4.1: one output per owner, which may be
    none. *)
Definition transfer (inputs : list Input) (owners_after : list PyVal)
  : Exc + t :=
  inr {| operation := TRANSFER;
         inputs := inputs;
         outputs := map (fun o => {| owners_after := [o] |}) owners_after;
         payload := PyNone;
         signatures := [] |}.

Definition operation_to_dict (o : Operation) : PyVal :=
  match o with CREATE => PyStr "CREATE" | TRANSFER => PyStr "TRANSFER" end.

Definition input_to_dict (i : Input) : PyVal :=
  PyDict [ ("fulfills",
            match fulfills i with
            | None => PyNone
            | Some (txid, n) =>
                PyDict [ ("txid", PyStr txid); ("output", PyInt (Z.of_nat n)) ]
            end);
           ("owners_before", PyList (owners_before i)) ].

Definition output_to_dict (o : Output) : PyVal :=
  PyDict [ ("owners_after", PyList (owners_after o)) ].

(** The transaction content excluding signatures: what is signed. *)
Definition content (tx : t) : list (string * PyVal) :=
  [ ("operation", operation_to_dict (operation tx));
    ("inputs", PyList (map input_to_dict (inputs tx)));
    ("outputs", PyList (map output_to_dict (outputs tx)));
    ("payload", payload tx) ].

Section WithCrypto.
Context `{Crypto}.

(** Modelled from the spec: [tx.sign(signing_keys)] of the external library,
    section 4.2: one signature per key, in the order given; a new value, the
    argument is not changed; no key is an error. *)
Definition sign (tx : t) (signing_keys : list PyVal) : Exc + t :=
  if is_nil signing_keys then inl SigningKeyMismatch
  else inr {| operation := operation tx;
              inputs := inputs tx;
              outputs := outputs tx;
              payload := payload tx;
              signatures :=
                map (crypto_sign (PyDict (content tx))) signing_keys |}.

Definition body (tx : t) : list (string * PyVal) :=
  content tx ++ [ ("signatures", PyList (map PyStr (signatures tx))) ].

(** The derived identifier. *)
Definition id (tx : t) : string := hash_data (PyDict (body tx)).

(** Modelled from the spec: [tx.to_dict()] of the external library; the
    fields are those of section 3. *)
Definition to_dict (tx : t) : PyVal :=
  PyDict (("id", PyStr (id tx)) :: body tx).

Fixpoint inputs_from (txid : string) (n : nat) (outs : list Output)
  : list Input :=
  match outs with
  | [] => []
  | o :: rest =>
      {| fulfills := Some (txid, n); owners_before := owners_after o |}
        :: inputs_from txid (S n) rest
  end.

(** Modelled from the spec: [tx.to_inputs()] of the external library: one
    input per output of [tx], spendable by the owners of that output. *)
Definition to_inputs (tx : t) : list Input :=
  inputs_from (id tx) 0 (outputs tx).

End WithCrypto.

End Transaction.

(** ** The transport interface

    What the driver uses of a transport class: its constructor
    [transport_class( *nodes )], its [nodes] attribute and
    [forward_request(method, path, json)].  [W] is the state a transport acts
    on (its own mutable state and the network). *)
Class TransportInterface (W T : Type) : Type := {
  transport_class : list string -> M W T;
  nodes : T -> list string;
  forward_request : T -> string -> string -> PyVal -> M W PyVal
}.

(** ** class BigchainDB *)

Module Driver.
Section WithTransport.
Context {W T : Type} `{TransportInterface W T}.

Record BigchainDB : Type := {
  _verifying_key : PyVal;
  _signing_key : PyVal;
  _transport : T;
  _nodes : list string
}.

(** [BigchainDB.__init__( *nodes, verifying_key, signing_key )] *)
Definition __init__ (nodes_ : list string)
           (verifying_key signing_key : PyVal) : M W BigchainDB :=
  (if negb (is_None verifying_key) && negb (isinstance_str verifying_key)
   then raise InvalidVerifyingKey
   else ret tt) ;;;
  (if negb (is_None signing_key)
   then (if negb (isinstance_str signing_key)
         then raise InvalidSigningKey
         else ret tt) ;;;
        (if is_None verifying_key
         then raise InvalidVerifyingKey
         else ret tt)
   else ret tt) ;;;
  transport <- transport_class nodes_ ;;
  ret {| _verifying_key := verifying_key;
         _signing_key := signing_key;
         _transport := transport;
         _nodes := nodes transport |}.

(** A request handed to the transport. *)
Record Request : Type := {
  method : string;
  path : string;
  json : PyVal
}.

(** The state the endpoint methods run in: the driver object, the state
    of the transport, and the trace of the requests handed to
    [forward_request] so far. *)
Record State : Type := {
  driver : BigchainDB;
  world : W;
  requests : list Request
}.

(** Properties of [NamespacedDriver]. *)
Definition transport : M State T :=
  fun s => (s, inr (_transport (driver s))).

Definition verifying_key : M State PyVal :=
  fun s => (s, inr (_verifying_key (driver s))).

Definition signing_key : M State PyVal :=
  fun s => (s, inr (_signing_key (driver s))).

(** [transport.forward_request(method=..., path=..., json=...)] *)
Definition call_forward_request (tr : T) (method_ path_ : string)
           (json_ : PyVal) : M State PyVal :=
  fun s =>
    let (w', r) := forward_request tr method_ path_ json_ (world s) in
    ({| driver := driver s;
        world := w';
        requests := requests s ++
                      [ {| method := method_; path := path_;
                           json := json_ |} ] |}, r).

End WithTransport.
End Driver.

(** ** class TransactionsEndpoint *)

Module TransactionsEndpoint.
Import Driver.
Section WithTransport.
Context {W T : Type} `{TransportInterface W T} `{Crypto}.

Local Abbreviation St := (@State W T).

Definition path : string := "/transactions/".

Definition _push (transaction : PyVal) : M St PyVal :=
  tr <- transport ;;
  call_forward_request tr "POST" path transaction.

Definition create (payload verifying_key signing_key : PyVal)
  : M St PyVal :=
  signing_key <- (if truthy signing_key then ret signing_key
                  else Driver.signing_key) ;;
  if negb (truthy signing_key) then raise InvalidSigningKey else
  verifying_key <- (if truthy verifying_key then ret verifying_key
                    else Driver.verifying_key) ;;
  if negb (truthy verifying_key) then raise InvalidVerifyingKey else
  transaction <- lift_exc (Transaction.create [verifying_key]
                                              [verifying_key] payload) ;;
  signed_transaction <- lift_exc (Transaction.sign transaction
                                                   [signing_key]) ;;
  _push (Transaction.to_dict signed_transaction).

Definition retrieve (txid : string) : M St PyVal :=
  let path := (path ++ txid)%string in
  tr <- transport ;;
  call_forward_request tr "GET" path PyNone.

Definition status (txid : string) : M St PyVal :=
  let path := (path ++ txid ++ "/status")%string in
  tr <- transport ;;
  call_forward_request tr "GET" path PyNone.

Definition transfer (transaction : Transaction.t)
           (owners_after : list PyVal) (signing_key : PyVal)
  : M St PyVal :=
  signing_key <- (if truthy signing_key then ret signing_key
                  else Driver.signing_key) ;;
  if negb (truthy signing_key) then raise InvalidSigningKey else
  let inputs := Transaction.to_inputs transaction in
  transfer_transaction <- lift_exc (Transaction.transfer inputs
                                                         owners_after) ;;
  signed_transaction <- lift_exc (Transaction.sign transfer_transaction
                                                   [signing_key]) ;;
  _push (Transaction.to_dict signed_transaction).

End WithTransport.
End TransactionsEndpoint.

(** ** The default transport: a round-robin pool of nodes *)

(** Modelled from the spec: [bigchaindb_driver.transport.Transport] and the
    pool it picks connections from are code of this package that is not
    available; the node pool and [forward_request] follow sections 4.3 and
    4.4 of the specification.  The HTTP capability is opaque: the network is
    a function giving the outcome of a call after the calls made so far. *)
Module Transport.

Record HttpCall : Type := {
  http_method : string;
  url : string;
  http_body : PyVal
}.

Inductive Outcome : Type :=
| Response (body : PyVal)
| ErrorResponse (status_code : Z) (message : string)
| Failure.

Record World : Type := {
  network : list HttpCall -> HttpCall -> Outcome;
  cursor : nat;
  sent : list HttpCall
}.

Record t : Type := {
  pool : list string;
  attempt_ceiling : nat
}.

Definition default_node : string := "http://localhost:9984/api/v1".

(** The node under cursor position [k]. *)
Definition node_at (tr : t) (k : nat) : string :=
  nth (k mod length (pool tr)) (pool tr) default_node.

(** Modelled from the spec: [NodePool.next()], section 4.3, which is not
    available: read the node under the cursor and advance the cursor modulo
    the pool size. *)
Definition next (tr : t) (w : World) : World * string :=
  ({| network := network w;
      cursor := S (cursor w) mod length (pool tr);
      sent := sent w |},
   node_at tr (cursor w)).

(** The HTTP call itself. *)
Definition send (c : HttpCall) (w : World) : World * Outcome :=
  ({| network := network w;
      cursor := cursor w;
      sent := sent w ++ [c] |},
   network w (sent w) c).

(** Modelled from the spec: the body of [Transport.forward_request], section
    4.4, which is not available: one attempt, followed by at most [retries]
    more, each on the next node, on transport failure. *)
Fixpoint attempt (retries : nat) (tr : t) (method path : string)
         (json : PyVal) (w : World) : World * (Exc + PyVal) :=
  let (w1, node) := next tr w in
  let (w2, out) := send {| http_method := method;
                           url := (node ++ path)%string;
                           http_body := json |} w1 in
  match out with
  | Response b => (w2, inr b)
  | ErrorResponse code msg => (w2, inl (RemoteRejection code msg))
  | Failure =>
      match retries with
      | 0 => (w2, inl (TransportError node))
      | S r => attempt r tr method path json w2
      end
  end.

(** Modelled from the spec: only read-only calls are retried, up to the
    attempt ceiling (section 4.4). *)
Definition retries_allowed (tr : t) (method : string) : nat :=
  if String.eqb method "GET" then Nat.pred (attempt_ceiling tr) else 0.

(** Modelled from the spec: [Transport.forward_request(method, path, json)],
    section 4.4, which is not available. *)
Definition forward_request (tr : t) (method path : string) (json : PyVal)
  : M World PyVal :=
  attempt (retries_allowed tr method) tr method path json.

(** Modelled from the spec: [Transport( *nodes )], which is not available,
    with the configured attempt ceiling; no node means the built-in local
    endpoint, and the cursor starts at the first node. *)
Definition new (ceiling : nat) (nodes : list string) : M World t :=
  fun w =>
    ({| network := network w; cursor := 0; sent := sent w |},
     inr {| pool := match nodes with
                    | [] => [default_node]
                    | _ :: _ => nodes
                    end;
            attempt_ceiling := ceiling |}).

Definition interface (ceiling : nat) : TransportInterface World t :=
  Build_TransportInterface (new ceiling) pool forward_request.

End Transport.

(** ** Concrete data for examples *)

Module Fixture.
Import Driver.

(** A symbolic stand-in for the cryptographic capability. *)
Definition crypto : Crypto :=
  {| crypto_sign := fun _ key =>
       match key with
       | PyStr k => ("sig:" ++ k)%string
       | _ => "sig"
       end;
     hash_data := fun _ => "txid0" |}.

(** A network whose node [http://a] is unreachable. *)
Definition network (_ : list Transport.HttpCall) (c : Transport.HttpCall)
  : Transport.Outcome :=
  if String.prefix "http://a/" (Transport.url c) then Transport.Failure
  else Transport.Response
         (PyDict [ ("url", PyStr (Transport.url c)) ]).

Definition world0 : Transport.World :=
  {| Transport.network := network;
     Transport.cursor := 0;
     Transport.sent := [] |}.

Definition two_nodes : Transport.t :=
  {| Transport.pool := [ "http://a"; "http://b" ];
     Transport.attempt_ceiling := 2 |}.

(** A driver with the given bound keys over the two nodes. *)
Definition state (vk sk : PyVal) : @State Transport.World Transport.t :=
  {| driver := {| _verifying_key := vk;
                  _signing_key := sk;
                  _transport := two_nodes;
                  _nodes := Transport.pool two_nodes |};
     world := world0;
     requests := [] |}.

Definition unbound_state : @State Transport.World Transport.t :=
  state PyNone PyNone.

Definition bound_state : @State Transport.World Transport.t :=
  state (PyStr "pk0") (PyStr "sk0").

Definition prior : Transaction.t :=
  {| Transaction.operation := Transaction.CREATE;
     Transaction.inputs :=
       [ {| Transaction.fulfills := None;
            Transaction.owners_before := [ PyStr "pk1" ] |} ];
     Transaction.outputs :=
       [ {| Transaction.owners_after := [ PyStr "pk1" ] |} ];
     Transaction.payload := PyNone;
     Transaction.signatures := [ "sig:sk1" ] |}.

End Fixture.

(** ** Notions used to state the properties *)

Module Spec.
Import Driver.

(** The resolver of the specification's design notes,
    resolve-with-precedence(explicit, bound, fail), where a key counts as
    given when it is truthy. *)
Definition resolve_with_precedence (explicit bound : PyVal) (fail : Exc)
  : Exc + PyVal :=
  if truthy explicit then inr explicit
  else if truthy bound then inr bound
  else inl fail.

(** The key a call works with: the per-call argument or the bound one. *)
Definition effective_key (explicit bound : PyVal) : PyVal :=
  if truthy explicit then explicit else bound.

(** The unsigned CREATE transaction owned by [vk]. *)
Definition created (vk payload : PyVal) : Transaction.t :=
  {| Transaction.operation := Transaction.CREATE;
     Transaction.inputs :=
       [ {| Transaction.fulfills := None;
            Transaction.owners_before := [vk] |} ];
     Transaction.outputs := [ {| Transaction.owners_after := [vk] |} ];
     Transaction.payload := payload;
     Transaction.signatures := [] |}.

(** The unsigned TRANSFER transaction spending [ins]. *)
Definition transferred (ins : list Transaction.Input)
           (owners : list PyVal) : Transaction.t :=
  {| Transaction.operation := Transaction.TRANSFER;
     Transaction.inputs := ins;
     Transaction.outputs :=
       map (fun o => {| Transaction.owners_after := [o] |}) owners;
     Transaction.payload := PyNone;
     Transaction.signatures := [] |}.

(** [tx] carrying the single signature made with [sk]. *)
Definition signed_by `{Crypto} (tx : Transaction.t) (sk : PyVal)
  : Transaction.t :=
  {| Transaction.operation := Transaction.operation tx;
     Transaction.inputs := Transaction.inputs tx;
     Transaction.outputs := Transaction.outputs tx;
     Transaction.payload := Transaction.payload tx;
     Transaction.signatures :=
       [ crypto_sign (PyDict (Transaction.content tx)) sk ] |}.

(** The public operations of the endpoint, as a client issues them. *)
Inductive Call : Type :=
| Create (payload verifying_key signing_key : PyVal)
| Transfer (transaction : Transaction.t) (owners_after : list PyVal)
           (signing_key : PyVal)
| Retrieve (txid : string)
| Status (txid : string).

Section WithTransport.
Context {W T : Type} `{TransportInterface W T} `{Crypto}.

Definition perform (c : Call) : M (@State W T) PyVal :=
  match c with
  | Create p vk sk => TransactionsEndpoint.create p vk sk
  | Transfer tx owners sk => TransactionsEndpoint.transfer tx owners sk
  | Retrieve txid => TransactionsEndpoint.retrieve txid
  | Status txid => TransactionsEndpoint.status txid
  end.

(** The state after a sequence of calls, whatever each one returned or
    raised. *)
Definition run (cs : list Call) (s : @State W T) : @State W T :=
  fold_left (fun s c => fst (perform c s)) cs s.

(** The same state with another bound verifying key. *)
Definition with_verifying_key (v : PyVal) (s : @State W T)
  : @State W T :=
  {| driver := {| _verifying_key := v;
                  _signing_key := _signing_key (driver s);
                  _transport := _transport (driver s);
                  _nodes := _nodes (driver s) |};
     world := world s;
     requests := requests s |}.

(** The state after [forward_request] was handed one request. *)
Definition forwarded (method_ path_ : string) (json_ : PyVal)
           (s : @State W T) : @State W T * (Exc + PyVal) :=
  let r := forward_request (_transport (driver s)) method_ path_ json_
                           (world s) in
  ({| driver := driver s;
      world := fst r;
      requests := requests s ++
                    [ {| method := method_; path := path_;
                         json := json_ |} ] |}, snd r).

End WithTransport.

(** With the default transport: the HTTP call a request makes on the node
    under cursor position [k]. *)
Definition call_on (s : @State Transport.World Transport.t) (k : nat)
           (method_ path_ : string) (json_ : PyVal) : Transport.HttpCall :=
  {| Transport.http_method := method_;
     Transport.url :=
       (Transport.node_at (_transport (driver s)) k ++ path_)%string;
     Transport.http_body := json_ |}.

(** The HTTP calls made between two states. *)
Definition calls_made (s s' : @State Transport.World Transport.t)
           (cs : list Transport.HttpCall) : Prop :=
  Transport.sent (world s') = Transport.sent (world s) ++ cs.

(** The cursor position after the one at [k]. *)
Definition next_position (s : @State Transport.World Transport.t)
           (k : nat) : nat :=
  S k mod length (Transport.pool (_transport (driver s))).

End Spec.

(** ** [temp_driver] *)

Section TempDriver.
Context {W T : Type} `{TransportInterface W T}.

(** [temp_driver(node)].  [generate_keypair] of [bigchaindb_driver.crypto] is
    not available and is taken as a parameter: a computation giving the pair
    (signing key, verifying key), in that order. *)
Definition temp_driver (generate_keypair : M W (PyVal * PyVal))
           (node : string) : M W (@Driver.BigchainDB T) :=
  keys <- generate_keypair ;;
  let (signing_key, verifying_key) := keys in
  Driver.__init__ [node] verifying_key signing_key.

End TempDriver.

(** ** Notions on drivers and requests *)

Module Observations.
Import Driver.

(** The keys the checks of the constructor let through. *)
Definition keys_accepted (vk sk : PyVal) : bool :=
  (is_None vk || isinstance_str vk)
  && (is_None sk || (isinstance_str sk && negb (is_None vk))).

(** A key that a call can work with: a string that is not empty. *)
Definition usable (v : PyVal) : bool :=
  match v with
  | PyStr k => negb (String.eqb k "")
  | _ => false
  end.

(** What the endpoint may hand to [forward_request]: a POST on the path of
    the endpoint, or a GET with no body on a path below it. *)
Definition endpoint_request (r : Request) : bool :=
  (String.eqb (method r) "POST" && String.eqb (path r) "/transactions/")
  || (String.eqb (method r) "GET"
      && String.prefix "/transactions/" (path r)
      && is_None (json r)).

Section WithTransport.
Context {W T : Type}.

(** Bound keys are [None] or strings, and a signing key comes with a
    verifying key. *)
Definition well_keyed (d : @BigchainDB T) : bool :=
  (is_None (_verifying_key d) || isinstance_str (_verifying_key d))
  && (is_None (_signing_key d) || isinstance_str (_signing_key d))
  && (is_None (_signing_key d) || isinstance_str (_verifying_key d)).

(** The state a driver starts in. *)
Definition fresh_state (d : @BigchainDB T) (w : W) : @State W T :=
  {| driver := d; world := w; requests := [] |}.

(** The same state with other bound keys. *)
Definition with_keys (v k : PyVal) (s : @State W T) : @State W T :=
  {| driver := {| _verifying_key := v;
                  _signing_key := k;
                  _transport := _transport (driver s);
                  _nodes := _nodes (driver s) |};
     world := world s;
     requests := requests s |}.

End WithTransport.

(** A key generator that always gives the same pair of strings. *)
Definition fixed_keypair (sk vk : string)
  : M Transport.World (PyVal * PyVal) :=
  fun w => (w, inr (PyStr sk, PyStr vk)).

End Observations.

(** * Properties *)

Section EndpointFacts.
Import Driver Spec.
Context {W T : Type} {TI : TransportInterface W T} {CR : Crypto}.
Implicit Types (s : @State W T) (payload vk sk : PyVal).

Lemma create_singleton_ok vk payload :
  Transaction.create [vk] [vk] payload = inr (created vk payload).
Proof. reflexivity. Qed.

Lemma transfer_ok ins owners :
  Transaction.transfer ins owners = inr (transferred ins owners).
Proof. reflexivity. Qed.

Lemma sign_singleton_ok tx sk :
  Transaction.sign tx [sk] = inr (signed_by tx sk).
Proof. reflexivity. Qed.

Lemma call_forward_request_eq s m p j :
  call_forward_request (_transport (driver s)) m p j s = forwarded m p j s.
Proof.
  unfold call_forward_request, forwarded.
  destruct (forward_request _ m p j (world s)); reflexivity.
Qed.

Lemma push_eq s j :
  TransactionsEndpoint._push j s =
  forwarded "POST" "/transactions/" j s.
Proof.
  unfold TransactionsEndpoint._push, bind, transport.
  apply call_forward_request_eq.
Qed.

(** [create], with the conditionals of the source spelled out. *)
Lemma create_eq s payload vk sk :
  TransactionsEndpoint.create payload vk sk s =
  let sk' := effective_key sk (_signing_key (driver s)) in
  let vk' := effective_key vk (_verifying_key (driver s)) in
  if truthy sk' then
    if truthy vk' then
      forwarded "POST" "/transactions/"
                (Transaction.to_dict (signed_by (created vk' payload) sk'))
                s
    else (s, inl InvalidVerifyingKey)
  else (s, inl InvalidSigningKey).
Proof.
  unfold TransactionsEndpoint.create, effective_key, bind, signing_key,
    verifying_key, ret, raise, lift_exc.
  cbv zeta.
  destruct (truthy sk) eqn:Esk;
    destruct (truthy (_signing_key (driver s))) eqn:Ebs;
    destruct (truthy vk) eqn:Evk;
    destruct (truthy (_verifying_key (driver s))) eqn:Ebv;
    cbv beta iota; rewrite ?Esk, ?Ebs; cbv beta iota delta [negb];
    rewrite ?Evk, ?Ebv; cbv beta iota; rewrite ?Evk, ?Ebv;
    cbv beta iota delta [negb];
    try reflexivity; exact (push_eq s _).
Qed.

(** [transfer], likewise. *)
Lemma transfer_eq s tx owners sk :
  TransactionsEndpoint.transfer tx owners sk s =
  let sk' := effective_key sk (_signing_key (driver s)) in
  if truthy sk' then
    forwarded "POST" "/transactions/"
              (Transaction.to_dict
                 (signed_by (transferred (Transaction.to_inputs tx) owners)
                            sk'))
              s
  else (s, inl InvalidSigningKey).
Proof.
  unfold TransactionsEndpoint.transfer, effective_key, bind, signing_key,
    ret, raise, lift_exc.
  cbv zeta.
  destruct (truthy sk) eqn:Esk;
    destruct (truthy (_signing_key (driver s))) eqn:Ebs;
    cbv beta iota; rewrite ?Esk, ?Ebs; cbv beta iota delta [negb];
    try reflexivity; exact (push_eq s _).
Qed.

Lemma retrieve_eq s txid :
  TransactionsEndpoint.retrieve txid s =
  forwarded "GET" ("/transactions/" ++ txid)%string PyNone s.
Proof.
  unfold TransactionsEndpoint.retrieve, bind, transport.
  apply call_forward_request_eq.
Qed.

Lemma status_eq s txid :
  TransactionsEndpoint.status txid s =
  forwarded "GET" ("/transactions/" ++ txid ++ "/status")%string PyNone s.
Proof.
  unfold TransactionsEndpoint.status, bind, transport.
  apply call_forward_request_eq.
Qed.

End EndpointFacts.

Section EndpointClaims.
Import Driver Spec.
Context {W T : Type} {TI : TransportInterface W T} {CR : Crypto}.
Implicit Types (s : @State W T) (payload vk sk k : PyVal) (w : W).

Lemma effective_key_falsy k bound :
  truthy k = false -> effective_key k bound = bound.
Proof. unfold effective_key. intros ->. reflexivity. Qed.

Lemma effective_key_None bound : effective_key PyNone bound = bound.
Proof. reflexivity. Qed.

(** C1 (amended): when neither the per-call signing key nor the bound one
    is usable, [create] raises [InvalidSigningKey]; when a signing key
    resolves but no verifying key does, it raises [InvalidVerifyingKey].
    In both cases the state is returned as it was: the transport state is
    untouched and no request was handed to [forward_request]. *)
Theorem create_unresolved_key_raises_before_transport s payload vk sk :
  (truthy sk = false -> truthy (_signing_key (driver s)) = false ->
   TransactionsEndpoint.create payload vk sk s
   = (s, inl InvalidSigningKey)) /\
  (truthy (effective_key sk (_signing_key (driver s))) = true ->
   truthy vk = false -> truthy (_verifying_key (driver s)) = false ->
   TransactionsEndpoint.create payload vk sk s
   = (s, inl InvalidVerifyingKey)).
Proof.
  split.
  - intros Hk Hb. rewrite create_eq. cbv zeta.
    rewrite effective_key_falsy by assumption. rewrite Hb. reflexivity.
  - intros Hsk Hk Hb. rewrite create_eq. cbv zeta.
    rewrite Hsk. rewrite effective_key_falsy by assumption.
    rewrite Hb. reflexivity.
Qed.

(** C3: with keys that resolve to [vk'] and [sk'], [create] builds a CREATE
    transaction whose single input and single output are owned by [vk'],
    signs it with the one key [sk'], and hands it to [forward_request] once
    as a POST on the path [/transactions/], returning what that call
    returns. *)
Theorem create_builds_signs_posts s payload vk sk :
  truthy (effective_key sk (_signing_key (driver s))) = true ->
  truthy (effective_key vk (_verifying_key (driver s))) = true ->
  exists tx signed,
    Transaction.create [effective_key vk (_verifying_key (driver s))]
                       [effective_key vk (_verifying_key (driver s))]
                       payload = inr tx /\
    Transaction.operation tx = Transaction.CREATE /\
    map Transaction.owners_before (Transaction.inputs tx)
    = [[effective_key vk (_verifying_key (driver s))]] /\
    map Transaction.owners_after (Transaction.outputs tx)
    = [[effective_key vk (_verifying_key (driver s))]] /\
    Transaction.sign tx [effective_key sk (_signing_key (driver s))]
    = inr signed /\
    Transaction.signatures signed
    = [crypto_sign (PyDict (Transaction.content tx))
                   (effective_key sk (_signing_key (driver s)))] /\
    Transaction.operation signed = Transaction.CREATE /\
    Transaction.inputs signed = Transaction.inputs tx /\
    Transaction.outputs signed = Transaction.outputs tx /\
    TransactionsEndpoint.path = "/transactions/" /\
    TransactionsEndpoint.create payload vk sk s
    = forwarded "POST" TransactionsEndpoint.path
                (Transaction.to_dict signed) s /\
    requests (fst (TransactionsEndpoint.create payload vk sk s))
    = requests s ++ [ {| method := "POST"; path := "/transactions/";
                         json := Transaction.to_dict signed |} ].
Proof.
  intros Hsk Hvk.
  exists (created (effective_key vk (_verifying_key (driver s))) payload).
  exists (signed_by
            (created (effective_key vk (_verifying_key (driver s))) payload)
            (effective_key sk (_signing_key (driver s)))).
  rewrite create_eq. cbv zeta. rewrite Hsk, Hvk.
  repeat split.
Qed.

(** C4: a [transfer] with a signing key that resolves and no new owner
    does not raise while building and signing: the TRANSFER transaction is
    built, signed, has no output, and is what is pushed. *)
Theorem transfer_burn_builds_and_signs s (tx : Transaction.t) sk :
  truthy (effective_key sk (_signing_key (driver s))) = true ->
  exists unsigned signed,
    Transaction.transfer (Transaction.to_inputs tx) [] = inr unsigned /\
    Transaction.sign unsigned [effective_key sk (_signing_key (driver s))]
    = inr signed /\
    Transaction.operation signed = Transaction.TRANSFER /\
    Transaction.outputs signed = [] /\
    length (Transaction.outputs signed) = 0 /\
    TransactionsEndpoint.transfer tx [] sk s
    = forwarded "POST" TransactionsEndpoint.path
                (Transaction.to_dict signed) s.
Proof.
  intros Hsk.
  exists (transferred (Transaction.to_inputs tx) []).
  exists (signed_by (transferred (Transaction.to_inputs tx) [])
                    (effective_key sk (_signing_key (driver s)))).
  rewrite transfer_eq. cbv zeta. rewrite Hsk.
  repeat split.
Qed.

(** C5: the constructor raises [InvalidVerifyingKey] when a string signing
    key comes without a verifying key and when the verifying key is given
    and is not a string, and [InvalidSigningKey] when the signing key is
    given and is not a string (the verifying key having passed its own
    check, which comes first).  Each time the transport class is not
    instantiated and the state is returned as it was. *)
Theorem init_rejects_bad_keys (nodes_ : list string) vk sk w :
  (is_None vk = true -> isinstance_str sk = true ->
   __init__ nodes_ vk sk w = (w, inl InvalidVerifyingKey)) /\
  (is_None vk = false -> isinstance_str vk = false ->
   __init__ nodes_ vk sk w = (w, inl InvalidVerifyingKey)) /\
  (is_None sk = false -> isinstance_str sk = false ->
   is_None vk = true \/ isinstance_str vk = true ->
   __init__ nodes_ vk sk w = (w, inl InvalidSigningKey)).
Proof.
  unfold __init__, bind, raise, ret.
  split; [ | split ].
  - intros Hvk Hsk. rewrite Hvk. destruct sk; try discriminate Hsk.
    reflexivity.
  - intros Hn Hs. rewrite Hn, Hs. reflexivity.
  - intros Hn Hs [Hvk | Hvk].
    + rewrite Hvk, Hn, Hs. reflexivity.
    + rewrite Hvk, Hn, Hs. rewrite andb_false_r. reflexivity.
Qed.

(** C6 (amended): the keys of [create] and [transfer] are those of the
    resolver with precedence, where an argument counts as given when it is
    truthy: a truthy per-call key is used whatever key is bound; the bound
    key is used when the per-call argument is absent or falsy; the call
    fails when neither is usable. *)
Theorem keys_resolve_with_precedence s payload (tx : Transaction.t)
        (owners : list PyVal) vk sk :
  (forall explicit bound fail,
      truthy explicit = true ->
      resolve_with_precedence explicit bound fail = inr explicit) /\
  (forall explicit bound fail,
      truthy explicit = false ->
      resolve_with_precedence explicit bound fail
      = if truthy bound then inr bound else inl fail) /\
  TransactionsEndpoint.create payload vk sk s
  = match resolve_with_precedence sk (_signing_key (driver s))
                                  InvalidSigningKey with
    | inl e => (s, inl e)
    | inr sk' =>
        match resolve_with_precedence vk (_verifying_key (driver s))
                                      InvalidVerifyingKey with
        | inl e => (s, inl e)
        | inr vk' =>
            forwarded "POST" TransactionsEndpoint.path
              (Transaction.to_dict (signed_by (created vk' payload) sk')) s
        end
    end /\
  TransactionsEndpoint.transfer tx owners sk s
  = match resolve_with_precedence sk (_signing_key (driver s))
                                  InvalidSigningKey with
    | inl e => (s, inl e)
    | inr sk' =>
        forwarded "POST" TransactionsEndpoint.path
          (Transaction.to_dict
             (signed_by (transferred (Transaction.to_inputs tx) owners)
                        sk')) s
    end.
Proof.
  split; [ | split; [ | split ] ].
  - intros explicit bound fail He. unfold resolve_with_precedence.
    rewrite He. reflexivity.
  - intros explicit bound fail He. unfold resolve_with_precedence.
    rewrite He. reflexivity.
  - rewrite create_eq. unfold resolve_with_precedence, effective_key.
    cbv zeta.
    destruct (truthy sk) eqn:Esk;
      destruct (truthy (_signing_key (driver s))) eqn:Ebs;
      destruct (truthy vk) eqn:Evk;
      destruct (truthy (_verifying_key (driver s))) eqn:Ebv;
      cbv beta iota; rewrite ?Esk, ?Ebs; cbv beta iota;
      rewrite ?Evk, ?Ebv; reflexivity.
  - rewrite transfer_eq. unfold resolve_with_precedence, effective_key.
    cbv zeta.
    destruct (truthy sk) eqn:Esk;
      destruct (truthy (_signing_key (driver s))) eqn:Ebs;
      cbv beta iota; rewrite ?Esk, ?Ebs; reflexivity.
Qed.

(** C7: [retrieve(txid)] hands [forward_request] one GET on the path
    [/transactions/] followed by [txid], and [status(txid)] one GET on that
    path followed by [/status]; each returns (or raises) what
    [forward_request] does. *)
Theorem retrieve_and_status_get s (txid : string) :
  (TransactionsEndpoint.retrieve txid s
   = forwarded "GET" ("/transactions/" ++ txid)%string PyNone s /\
   requests (fst (TransactionsEndpoint.retrieve txid s))
   = requests s ++ [ {| method := "GET";
                        path := ("/transactions/" ++ txid)%string;
                        json := PyNone |} ] /\
   snd (TransactionsEndpoint.retrieve txid s)
   = snd (forward_request (_transport (driver s)) "GET"
                          ("/transactions/" ++ txid)%string PyNone
                          (world s))) /\
  (TransactionsEndpoint.status txid s
   = forwarded "GET" ("/transactions/" ++ txid ++ "/status")%string
               PyNone s /\
   requests (fst (TransactionsEndpoint.status txid s))
   = requests s ++ [ {| method := "GET";
                        path := ("/transactions/" ++ txid
                                                  ++ "/status")%string;
                        json := PyNone |} ] /\
   snd (TransactionsEndpoint.status txid s)
   = snd (forward_request (_transport (driver s)) "GET"
                          ("/transactions/" ++ txid ++ "/status")%string
                          PyNone (world s))).
Proof.
  rewrite retrieve_eq, status_eq. repeat split.
Qed.

End EndpointClaims.

Section FrameAndFalsyKeys.
Import Driver Spec.
Context {W T : Type} {TI : TransportInterface W T} {CR : Crypto}.
Implicit Types (s : @State W T) (payload vk sk k : PyVal) (w : W).

Lemma forwarded_driver s m p j : driver (fst (forwarded m p j s)) = driver s.
Proof. reflexivity. Qed.

Lemma perform_driver (c : Call) s : driver (fst (perform c s)) = driver s.
Proof.
  destruct c as [p vk sk | tx owners sk | txid | txid]; cbn [perform].
  - rewrite create_eq. cbv zeta.
    destruct (truthy (effective_key sk _)); [ | reflexivity ].
    destruct (truthy (effective_key vk _)); reflexivity.
  - rewrite transfer_eq. cbv zeta.
    destruct (truthy (effective_key sk _)); reflexivity.
  - rewrite retrieve_eq. reflexivity.
  - rewrite status_eq. reflexivity.
Qed.

Lemma run_driver (cs : list Call) : forall s, driver (run cs s) = driver s.
Proof.
  induction cs as [ | c cs IH ]; intros s.
  - reflexivity.
  - unfold run in *. cbn [fold_left]. rewrite IH. apply perform_driver.
Qed.



(** C9: a falsy per-call key (the empty string, for one) is the same as
    no key: [create] and [transfer] do exactly what they do with [None];
    if the bound key is falsy as well the call raises the key error with
    nothing sent; and whatever the arguments, a transaction that is pushed
    was made with truthy keys, so never with the empty string.  When the
    bound key is truthy it is the one used in place of the falsy argument:
    the transaction pushed is signed with the bound signing key, or owned by
    the bound verifying key. *)
Theorem falsy_key_is_no_key s payload (tx : Transaction.t)
        (owners : list PyVal) vk sk k :
  truthy k = false ->
  TransactionsEndpoint.create payload vk k s
  = TransactionsEndpoint.create payload vk PyNone s /\
  TransactionsEndpoint.create payload k sk s
  = TransactionsEndpoint.create payload PyNone sk s /\
  TransactionsEndpoint.transfer tx owners k s
  = TransactionsEndpoint.transfer tx owners PyNone s /\
  (truthy (_signing_key (driver s)) = false ->
   TransactionsEndpoint.create payload vk k s
   = (s, inl InvalidSigningKey) /\
   TransactionsEndpoint.transfer tx owners k s
   = (s, inl InvalidSigningKey)) /\
  (truthy (effective_key sk (_signing_key (driver s))) = true ->
   truthy (_verifying_key (driver s)) = false ->
   TransactionsEndpoint.create payload k sk s
   = (s, inl InvalidVerifyingKey)) /\
  (TransactionsEndpoint.create payload vk sk s
   = (s, inl InvalidSigningKey)
   \/ TransactionsEndpoint.create payload vk sk s
      = (s, inl InvalidVerifyingKey)
   \/ exists vk' sk',
       (truthy vk' = true /\ vk' <> PyStr "") /\
       (truthy sk' = true /\ sk' <> PyStr "") /\
       TransactionsEndpoint.create payload vk sk s
       = forwarded "POST" TransactionsEndpoint.path
           (Transaction.to_dict (signed_by (created vk' payload) sk')) s) /\
  (TransactionsEndpoint.transfer tx owners sk s
   = (s, inl InvalidSigningKey)
   \/ exists sk',
       (truthy sk' = true /\ sk' <> PyStr "") /\
       TransactionsEndpoint.transfer tx owners sk s
       = forwarded "POST" TransactionsEndpoint.path
           (Transaction.to_dict
              (signed_by (transferred (Transaction.to_inputs tx) owners)
                         sk')) s) /\
  (truthy (_signing_key (driver s)) = true ->
   truthy (effective_key vk (_verifying_key (driver s))) = true ->
   TransactionsEndpoint.create payload vk k s
   = forwarded "POST" TransactionsEndpoint.path
       (Transaction.to_dict
          (signed_by
             (created (effective_key vk (_verifying_key (driver s)))
                      payload)
             (_signing_key (driver s)))) s) /\
  (truthy (_verifying_key (driver s)) = true ->
   truthy (effective_key sk (_signing_key (driver s))) = true ->
   TransactionsEndpoint.create payload k sk s
   = forwarded "POST" TransactionsEndpoint.path
       (Transaction.to_dict
          (signed_by (created (_verifying_key (driver s)) payload)
                     (effective_key sk (_signing_key (driver s))))) s) /\
  (truthy (_signing_key (driver s)) = true ->
   TransactionsEndpoint.transfer tx owners k s
   = forwarded "POST" TransactionsEndpoint.path
       (Transaction.to_dict
          (signed_by (transferred (Transaction.to_inputs tx) owners)
                     (_signing_key (driver s)))) s).
Proof.
  intros Hk.
  assert (Hne : forall v, truthy v = true -> v <> PyStr "").
  { intros v Hv ->. discriminate Hv. }
  repeat rewrite create_eq. repeat rewrite transfer_eq. cbv zeta.
  rewrite !(effective_key_None).
  rewrite !(@effective_key_falsy k) by assumption.
  split; [ reflexivity | ].
  split; [ reflexivity | ].
  split; [ reflexivity | ].
  split.
  { intros ->. split; reflexivity. }
  split.
  { intros -> ->. reflexivity. }
  split.
  { destruct (truthy (effective_key sk _)) eqn:Esk; [ | now left ].
    destruct (truthy (effective_key vk _)) eqn:Evk; [ | now right; left ].
    right; right.
    exists (effective_key vk (_verifying_key (driver s))).
    exists (effective_key sk (_signing_key (driver s))).
    auto. }
  split.
  { destruct (truthy (effective_key sk _)) eqn:Esk; [ | now left ].
    right. exists (effective_key sk (_signing_key (driver s))). auto. }
  split; [ | split ].
  - intros Hs Hv. rewrite Hs, Hv. reflexivity.
  - intros Hv Hs. rewrite Hs, Hv. reflexivity.
  - intros Hs. rewrite Hs. reflexivity.
Qed.

(** C10: [transfer] does not look at a verifying key: with any other bound
    verifying key it returns the same result and leaves the same transport
    state and the same requests.  It either raises [InvalidSigningKey]
    with nothing sent, or signs the TRANSFER transaction with the one-key
    list made of the resolved signing key, whatever the number of inputs,
    and pushes it; an exception it raises is [InvalidSigningKey] or comes
    out of [forward_request]. *)
Theorem transfer_ignores_verifying_key_and_signs_once
        s (tx : Transaction.t) (owners : list PyVal) sk (v : PyVal) :
  (snd (TransactionsEndpoint.transfer tx owners sk
                                      (with_verifying_key v s))
   = snd (TransactionsEndpoint.transfer tx owners sk s) /\
   world (fst (TransactionsEndpoint.transfer tx owners sk
                                             (with_verifying_key v s)))
   = world (fst (TransactionsEndpoint.transfer tx owners sk s)) /\
   requests (fst (TransactionsEndpoint.transfer tx owners sk
                                                (with_verifying_key v s)))
   = requests (fst (TransactionsEndpoint.transfer tx owners sk s))) /\
  ((truthy (effective_key sk (_signing_key (driver s))) = false /\
    TransactionsEndpoint.transfer tx owners sk s
    = (s, inl InvalidSigningKey))
   \/
   (truthy (effective_key sk (_signing_key (driver s))) = true /\
    exists unsigned signed,
      Transaction.transfer (Transaction.to_inputs tx) owners
      = inr unsigned /\
      Transaction.inputs unsigned = Transaction.to_inputs tx /\
      Transaction.sign unsigned
                       [effective_key sk (_signing_key (driver s))]
      = inr signed /\
      Transaction.signatures signed
      = [crypto_sign (PyDict (Transaction.content unsigned))
                     (effective_key sk (_signing_key (driver s)))] /\
      TransactionsEndpoint.transfer tx owners sk s
      = forwarded "POST" TransactionsEndpoint.path
                  (Transaction.to_dict signed) s)) /\
  (forall e,
      snd (TransactionsEndpoint.transfer tx owners sk s) = inl e ->
      e = InvalidSigningKey
      \/ exists j,
          snd (forward_request (_transport (driver s)) "POST"
                               TransactionsEndpoint.path j (world s))
          = inl e).
Proof.
  split; [ | split ].
  - rewrite !transfer_eq. cbv zeta.
    change (_signing_key (driver (with_verifying_key v s)))
      with (_signing_key (driver s)).
    destruct (truthy (effective_key sk _)); repeat split.
  - rewrite transfer_eq. cbv zeta.
    destruct (truthy (effective_key sk _)) eqn:Esk.
    + right. split; [ reflexivity | ].
      exists (transferred (Transaction.to_inputs tx) owners).
      exists (signed_by (transferred (Transaction.to_inputs tx) owners)
                        (effective_key sk (_signing_key (driver s)))).
      repeat split.
    + left. split; reflexivity.
  - intros e. rewrite transfer_eq. cbv zeta.
    destruct (truthy (effective_key sk _)).
    + intros He. right. eexists. exact He.
    + intros He. left. cbn in He. congruence.
Qed.

End FrameAndFalsyKeys.

Section DefaultTransportClaims.
Import Driver Spec.
Context {CR : Crypto}.
Variable ceiling : nat.

Local Abbreviation St := (@State Transport.World Transport.t).
Local Abbreviation TI := (Transport.interface ceiling).
Implicit Types (s : St) (payload vk sk j : PyVal) (w : Transport.World).

(** The state of the world after one HTTP call. *)
Lemma attempt_step r (tr : Transport.t) m p j w :
  Transport.attempt r tr m p j w =
  let c := {| Transport.http_method := m; Transport.url := (Transport.node_at tr (Transport.cursor w) ++ p)%string;
              Transport.http_body := j |} in
  let w' := {| Transport.network := Transport.network w;
               Transport.cursor := S (Transport.cursor w) mod length (Transport.pool tr);
               Transport.sent := Transport.sent w ++ [c] |} in
  match Transport.network w (Transport.sent w) c with
  | Transport.Response b => (w', inr b)
  | Transport.ErrorResponse code msg => (w', inl (RemoteRejection code msg))
  | Transport.Failure =>
      match r with
      | 0 => (w', inl (TransportError (Transport.node_at tr (Transport.cursor w))))
      | S r' => Transport.attempt r' tr m p j w'
      end
  end.
Proof. destruct r; reflexivity. Qed.

(** An Transport.attempt with [r] retries makes between one and [r + 1] calls. *)
Lemma attempt_calls r (tr : Transport.t) m p j :
  forall w, exists cs,
    Transport.sent (fst (Transport.attempt r tr m p j w)) = Transport.sent w ++ cs /\
    1 <= length cs <= S r.
Proof.
  induction r as [ | r IH ]; intros w; rewrite attempt_step; cbv zeta.
  - eexists [_].
    destruct (Transport.network w (Transport.sent w) _); cbn; split; (reflexivity || lia).
  - destruct (Transport.network w (Transport.sent w) _) eqn:E.
    + eexists [_]. cbn. split; [ reflexivity | lia ].
    + eexists [_]. cbn. split; [ reflexivity | lia ].
    + match goal with
      | |- context [Transport.attempt r tr m p j ?w1] =>
          destruct (IH w1) as [cs [Hs Hl]]
      end.
      eexists (_ :: cs). rewrite Hs. cbn [Transport.sent].
      rewrite <- app_assoc. cbn. split; [ reflexivity | lia ].
Qed.

(** The errors of the default transport. *)
Lemma attempt_errors r (tr : Transport.t) m p j :
  forall w e, snd (Transport.attempt r tr m p j w) = inl e ->
              (exists node, e = TransportError node)
              \/ exists code msg, e = RemoteRejection code msg.
Proof.
  induction r as [ | r IH ]; intros w e; rewrite attempt_step; cbv zeta;
    destruct (Transport.network w (Transport.sent w) _); cbn [snd]; intros He;
    try discriminate He;
    try (injection He as <-; eauto; fail).
  eapply IH. exact He.
Qed.

Lemma forwarded_post_once s p j :
  let r := @forwarded _ _ TI "POST" p j s in
  calls_made s (fst r) [call_on s (Transport.cursor (world s)) "POST" p j] /\
  (Transport.network (world s) (Transport.sent (world s))
           (call_on s (Transport.cursor (world s)) "POST" p j) = Transport.Failure ->
   snd r = inl (TransportError
                  (Transport.node_at (_transport (driver s)) (Transport.cursor (world s))))).
Proof.
  cbv zeta. unfold forwarded, calls_made, call_on.
  cbn [forward_request Transport.interface fst snd world].
  unfold Transport.forward_request.
  change (Transport.retries_allowed (_transport (driver s)) "POST") with 0.
  rewrite attempt_step. cbv zeta.
  destruct (Transport.network (world s) (Transport.sent (world s)) _) eqn:E; cbn;
    split; try reflexivity; intros; congruence.
Qed.

Lemma forwarded_get_bounded s p :
  let r := @forwarded _ _ TI "GET" p PyNone s in
  exists cs,
    calls_made s (fst r) cs /\
    1 <= length cs <= Nat.max 1 (Transport.attempt_ceiling (_transport (driver s))).
Proof.
  cbv zeta. unfold forwarded, calls_made.
  cbn [forward_request Transport.interface fst snd world].
  unfold Transport.forward_request.
  change (Transport.retries_allowed (_transport (driver s)) "GET")
    with (Nat.pred (Transport.attempt_ceiling (_transport (driver s)))).
  destruct (attempt_calls (Nat.pred (Transport.attempt_ceiling (_transport (driver s))))
                          (_transport (driver s)) "GET" p PyNone (world s))
    as [cs [Hs Hl]].
  exists cs. split; [ exact Hs | lia ].
Qed.

Lemma forwarded_get_fails_over s p (b : PyVal) :
  2 <= Transport.attempt_ceiling (_transport (driver s)) ->
  Transport.network (world s) (Transport.sent (world s))
          (call_on s (Transport.cursor (world s)) "GET" p PyNone) = Transport.Failure ->
  Transport.network (world s)
          (Transport.sent (world s) ++ [call_on s (Transport.cursor (world s)) "GET" p PyNone])
          (call_on s (next_position s (Transport.cursor (world s))) "GET" p PyNone)
  = Transport.Response b ->
  let r := @forwarded _ _ TI "GET" p PyNone s in
  snd r = inr b /\
  calls_made s (fst r)
             [ call_on s (Transport.cursor (world s)) "GET" p PyNone;
               call_on s (next_position s (Transport.cursor (world s))) "GET" p
                       PyNone ].
Proof.
  intros Hc H1 H2. cbv zeta.
  unfold forwarded, calls_made, call_on, next_position in *.
  cbn [forward_request Transport.interface fst snd world].
  unfold Transport.forward_request.
  change (Transport.retries_allowed (_transport (driver s)) "GET")
    with (Nat.pred (Transport.attempt_ceiling (_transport (driver s)))).
  destruct (Transport.attempt_ceiling (_transport (driver s))) as [ | [ | c ] ];
    try lia.
  cbn [Nat.pred].
  rewrite attempt_step. cbv zeta. rewrite H1.
  rewrite attempt_step. cbv zeta. cbn [Transport.network Transport.sent Transport.cursor].
  rewrite H2. cbn [fst snd Transport.sent]. rewrite <- app_assoc.
  split; reflexivity.
Qed.

(** What a call that raises a key error or pushes once does to the
    network: at most one HTTP call, a POST on the node under the cursor,
    whose transport failure is raised and not retried. *)
Lemma key_error_or_push_calls s (r : St * (Exc + PyVal)) :
  (exists e, r = (s, inl e))
  \/ (exists j, r = @forwarded _ _ TI "POST" "/transactions/" j s) ->
  exists cs,
    calls_made s (fst r) cs /\ length cs <= 1 /\
    forall c, In c cs ->
      Transport.http_method c = "POST" /\
      Transport.url c
      = (Transport.node_at (_transport (driver s))
                           (Transport.cursor (world s))
           ++ "/transactions/")%string /\
      (Transport.network (world s) (Transport.sent (world s)) c
       = Transport.Failure ->
       snd r = inl (TransportError
                      (Transport.node_at (_transport (driver s))
                                         (Transport.cursor (world s))))).
Proof.
  intros [[e ->] | [j ->]].
  - exists []. unfold calls_made. cbn. rewrite app_nil_r.
    split; [ reflexivity | split; [ lia | intros c [] ] ].
  - destruct (forwarded_post_once s "/transactions/" j) as [Hc Hf].
    eexists. split; [ exact Hc | split; [ cbn; lia | ] ].
    intros c [<- | []]. repeat split. exact Hf.
Qed.

(** C2 (against the transport of the specification): a push is one HTTP
    call, made on the node under the cursor, and its transport failure is
    raised without another attempt; [create] and [transfer] make at most
    that one call, and exactly one when their keys resolve.  [retrieve]
    and [status] make between one call and the attempt ceiling; when the
    ceiling allows a second attempt, the first node fails and the next
    node answers, they return that answer after those two calls. *)
Theorem mutating_calls_sent_once_reads_fail_over
        s payload vk sk (tx : Transaction.t) (owners : list PyVal)
        (txid : string) :
  (forall j,
      calls_made s (fst (@TransactionsEndpoint._push _ _ TI j s))
                 [ call_on s (Transport.cursor (world s)) "POST"
                           "/transactions/" j ] /\
      (Transport.network (world s) (Transport.sent (world s))
                         (call_on s (Transport.cursor (world s)) "POST"
                                  "/transactions/" j)
       = Transport.Failure ->
       snd (@TransactionsEndpoint._push _ _ TI j s)
       = inl (TransportError
                (Transport.node_at (_transport (driver s))
                                   (Transport.cursor (world s)))))) /\
  (exists cs,
      calls_made s
        (fst (@TransactionsEndpoint.create _ _ TI CR payload vk sk s)) cs /\
      length cs <= 1 /\
      (truthy (effective_key sk (_signing_key (driver s))) = true ->
       truthy (effective_key vk (_verifying_key (driver s))) = true ->
       length cs = 1) /\
      forall c, In c cs ->
        Transport.http_method c = "POST" /\
        Transport.url c
        = (Transport.node_at (_transport (driver s))
                             (Transport.cursor (world s))
             ++ "/transactions/")%string /\
        (Transport.network (world s) (Transport.sent (world s)) c
         = Transport.Failure ->
         snd (@TransactionsEndpoint.create _ _ TI CR payload vk sk s)
         = inl (TransportError
                  (Transport.node_at (_transport (driver s))
                                     (Transport.cursor (world s)))))) /\
  (exists cs,
      calls_made s
        (fst (@TransactionsEndpoint.transfer _ _ TI CR tx owners sk s))
        cs /\
      length cs <= 1 /\
      (truthy (effective_key sk (_signing_key (driver s))) = true ->
       length cs = 1) /\
      forall c, In c cs ->
        Transport.http_method c = "POST" /\
        Transport.url c
        = (Transport.node_at (_transport (driver s))
                             (Transport.cursor (world s))
             ++ "/transactions/")%string /\
        (Transport.network (world s) (Transport.sent (world s)) c
         = Transport.Failure ->
         snd (@TransactionsEndpoint.transfer _ _ TI CR tx owners sk s)
         = inl (TransportError
                  (Transport.node_at (_transport (driver s))
                                     (Transport.cursor (world s)))))) /\
  (exists cs,
      calls_made s (fst (@TransactionsEndpoint.retrieve _ _ TI txid s))
                 cs /\
      1 <= length cs
      <= Nat.max 1 (Transport.attempt_ceiling (_transport (driver s)))) /\
  (exists cs,
      calls_made s (fst (@TransactionsEndpoint.status _ _ TI txid s)) cs /\
      1 <= length cs
      <= Nat.max 1 (Transport.attempt_ceiling (_transport (driver s)))) /\
  (forall p b,
      p = ("/transactions/" ++ txid)%string ->
      2 <= Transport.attempt_ceiling (_transport (driver s)) ->
      Transport.network (world s) (Transport.sent (world s))
        (call_on s (Transport.cursor (world s)) "GET" p PyNone)
      = Transport.Failure ->
      Transport.network (world s)
        (Transport.sent (world s)
           ++ [ call_on s (Transport.cursor (world s)) "GET" p PyNone ])
        (call_on s (next_position s (Transport.cursor (world s))) "GET" p
                 PyNone)
      = Transport.Response b ->
      snd (@TransactionsEndpoint.retrieve _ _ TI txid s) = inr b /\
      calls_made s (fst (@TransactionsEndpoint.retrieve _ _ TI txid s))
        [ call_on s (Transport.cursor (world s)) "GET" p PyNone;
          call_on s (next_position s (Transport.cursor (world s))) "GET" p
                  PyNone ]) /\
  (forall p b,
      p = ("/transactions/" ++ txid ++ "/status")%string ->
      2 <= Transport.attempt_ceiling (_transport (driver s)) ->
      Transport.network (world s) (Transport.sent (world s))
        (call_on s (Transport.cursor (world s)) "GET" p PyNone)
      = Transport.Failure ->
      Transport.network (world s)
        (Transport.sent (world s)
           ++ [ call_on s (Transport.cursor (world s)) "GET" p PyNone ])
        (call_on s (next_position s (Transport.cursor (world s))) "GET" p
                 PyNone)
      = Transport.Response b ->
      snd (@TransactionsEndpoint.status _ _ TI txid s) = inr b /\
      calls_made s (fst (@TransactionsEndpoint.status _ _ TI txid s))
        [ call_on s (Transport.cursor (world s)) "GET" p PyNone;
          call_on s (next_position s (Transport.cursor (world s))) "GET" p
                  PyNone ]).
Proof.
  split; [ | split; [ | split; [ | split; [ | split; [ | split ] ] ] ] ].
  - intros j. rewrite push_eq. apply forwarded_post_once.
  - destruct (key_error_or_push_calls
                (s := s)
                (r := @TransactionsEndpoint.create _ _ TI CR payload vk sk
                                                   s))
      as [cs [Hc [Hl Hin]]].
    { rewrite create_eq. cbv zeta.
      destruct (truthy (effective_key sk _)); [ | left; eauto ].
      destruct (truthy (effective_key vk _)); [ | left; eauto ].
      right. eauto. }
    exists cs. split; [ exact Hc | split; [ exact Hl | split ] ];
      [ | exact Hin ].
    intros Hsk Hvk. revert Hc. rewrite create_eq. cbv zeta.
    rewrite Hsk, Hvk. intros Hc.
    destruct (forwarded_post_once
                s "/transactions/"
                (Transaction.to_dict
                   (signed_by
                      (created
                         (effective_key vk (_verifying_key (driver s)))
                         payload)
                      (effective_key sk (_signing_key (driver s))))))
      as [Hc' _].
    unfold calls_made in Hc, Hc'. cbv zeta in Hc'. rewrite Hc' in Hc.
    apply app_inv_head in Hc. subst cs. reflexivity.
  - destruct (key_error_or_push_calls
                (s := s)
                (r := @TransactionsEndpoint.transfer _ _ TI CR tx owners sk
                                                     s))
      as [cs [Hc [Hl Hin]]].
    { rewrite transfer_eq. cbv zeta.
      destruct (truthy (effective_key sk _)); [ | left; eauto ].
      right. eauto. }
    exists cs. split; [ exact Hc | split; [ exact Hl | split ] ];
      [ | exact Hin ].
    intros Hsk. revert Hc. rewrite transfer_eq. cbv zeta.
    rewrite Hsk. intros Hc.
    destruct (forwarded_post_once
                s "/transactions/"
                (Transaction.to_dict
                   (signed_by
                      (transferred (Transaction.to_inputs tx) owners)
                      (effective_key sk (_signing_key (driver s))))))
      as [Hc' _].
    unfold calls_made in Hc, Hc'. cbv zeta in Hc'. rewrite Hc' in Hc.
    apply app_inv_head in Hc. subst cs. reflexivity.
  - rewrite retrieve_eq. apply forwarded_get_bounded.
  - rewrite status_eq. apply forwarded_get_bounded.
  - intros p b -> Hc H1 H2. rewrite retrieve_eq.
    apply forwarded_get_fails_over; assumption.
  - intros p b -> Hc H1 H2. rewrite status_eq.
    apply forwarded_get_fails_over; assumption.
Qed.

(** With the default transport, what [transfer] raises is the signing-key
    error or an error of the network; never one about a verifying key. *)
Lemma transfer_default_transport_errors
      s (tx : Transaction.t) (owners : list PyVal) sk (e : Exc) :
  snd (@TransactionsEndpoint.transfer _ _ TI CR tx owners sk s) = inl e ->
  e = InvalidSigningKey
  \/ (exists node, e = TransportError node)
  \/ exists code msg, e = RemoteRejection code msg.
Proof.
  rewrite transfer_eq. cbv zeta.
  destruct (truthy (effective_key sk _)).
  - unfold forwarded. cbn [snd forward_request Transport.interface].
    unfold Transport.forward_request. intros He. right.
    eapply attempt_errors. exact He.
  - cbn [snd]. intros He. left. congruence.
Qed.

End DefaultTransportClaims.

(** * The properties on concrete calls *)

Module Examples.
Import Driver Spec.
#[local] Existing Instance Fixture.crypto.

Abbreviation TI := (Transport.interface 2).
Abbreviation create :=
  (@TransactionsEndpoint.create _ _ TI Fixture.crypto).
Abbreviation transfer :=
  (@TransactionsEndpoint.transfer _ _ TI Fixture.crypto).
Abbreviation retrieve := (@TransactionsEndpoint.retrieve _ _ TI).
Abbreviation init := (@__init__ _ _ TI).

Lemma create_unresolved_key_raises_before_transport_witness :
  (truthy PyNone = false /\
   truthy (_signing_key (driver Fixture.unbound_state)) = false /\
   create PyNone PyNone PyNone Fixture.unbound_state
   = (Fixture.unbound_state, inl InvalidSigningKey)) /\
  (truthy (effective_key (PyStr "sk")
                         (_signing_key (driver Fixture.unbound_state)))
   = true /\
   truthy (_verifying_key (driver Fixture.unbound_state)) = false /\
   create PyNone PyNone (PyStr "sk") Fixture.unbound_state
   = (Fixture.unbound_state, inl InvalidVerifyingKey)).
Proof.
  split; (split; [ reflexivity | split; [ reflexivity | ] ]).
  - apply (proj1 (@create_unresolved_key_raises_before_transport
                    _ _ TI Fixture.crypto Fixture.unbound_state
                    PyNone PyNone PyNone)); reflexivity.
  - apply (proj2 (@create_unresolved_key_raises_before_transport
                    _ _ TI Fixture.crypto Fixture.unbound_state
                    PyNone PyNone (PyStr "sk"))); reflexivity.
Defined.

(** Against C1 as worded: without any signing key [create] raises
    [InvalidSigningKey], which is not [MissingSigningKey]; with a signing key
    and no verifying key it raises [InvalidVerifyingKey], which is not
    [MissingVerifyingKey]. *)
Lemma create_without_key_raises_invalid_not_missing :
  (snd (create PyNone PyNone PyNone Fixture.unbound_state)
   = inl InvalidSigningKey /\
   snd (create PyNone PyNone PyNone Fixture.unbound_state)
   <> inl MissingSigningKey) /\
  (snd (create PyNone PyNone (PyStr "sk") Fixture.unbound_state)
   = inl InvalidVerifyingKey /\
   snd (create PyNone PyNone (PyStr "sk") Fixture.unbound_state)
   <> inl MissingVerifyingKey).
Proof.
  split; (split; [ reflexivity | cbn; discriminate ]).
Qed.

Lemma mutating_calls_sent_once_reads_fail_over_witness :
  2 <= Transport.attempt_ceiling (_transport (driver Fixture.unbound_state))
  /\
  snd (retrieve "abc" Fixture.unbound_state)
  = inr (PyDict [ ("url", PyStr "http://b/transactions/abc") ]) /\
  snd (create PyNone (PyStr "pk") (PyStr "sk") Fixture.unbound_state)
  = inl (TransportError "http://a").
Proof.
  destruct (@mutating_calls_sent_once_reads_fail_over
              Fixture.crypto 2 Fixture.unbound_state
              PyNone (PyStr "pk") (PyStr "sk") Fixture.prior [] "abc")
    as (_ & (cs & Hcs & _ & _ & Hpost) & _ & _ & _ & Hget & _).
  split; [ cbn; lia | split ].
  - refine (proj1 (Hget _ _ eq_refl _ eq_refl eq_refl)). cbn. lia.
  - assert (E : cs = [ call_on Fixture.unbound_state 0 "POST"
                         "/transactions/"
                         (Transaction.to_dict
                            (signed_by (created (PyStr "pk") PyNone)
                                       (PyStr "sk"))) ]).
    { unfold calls_made in Hcs. cbn in Hcs. exact (eq_sym Hcs). }
    assert (Hin : In (call_on Fixture.unbound_state 0 "POST"
                              "/transactions/"
                              (Transaction.to_dict
                                 (signed_by (created (PyStr "pk") PyNone)
                                            (PyStr "sk")))) cs).
    { rewrite E. left. reflexivity. }
    exact (proj2 (proj2 (Hpost _ Hin)) eq_refl).
Defined.

Lemma create_builds_signs_posts_witness :
  truthy (effective_key PyNone (_signing_key (driver Fixture.bound_state)))
  = true /\
  truthy (effective_key (PyStr "pk")
                        (_verifying_key (driver Fixture.bound_state)))
  = true /\
  exists signed,
    Transaction.operation signed = Transaction.CREATE /\
    create PyNone (PyStr "pk") PyNone Fixture.bound_state
    = @forwarded _ _ TI "POST" "/transactions/" (Transaction.to_dict signed)
                Fixture.bound_state.
Proof.
  split; [ reflexivity | split; [ reflexivity | ] ].
  destruct (@create_builds_signs_posts
              _ _ TI Fixture.crypto Fixture.bound_state
              PyNone (PyStr "pk") PyNone eq_refl eq_refl)
    as (tx & signed & _ & _ & _ & _ & _ & _ & Hop & _ & _ & _ & Hc & _).
  exists signed. split; [ exact Hop | exact Hc ].
Defined.

Lemma transfer_burn_builds_and_signs_witness :
  truthy (effective_key (PyStr "sk")
                        (_signing_key (driver Fixture.unbound_state)))
  = true /\
  exists signed,
    Transaction.outputs signed = [] /\
    transfer Fixture.prior [] (PyStr "sk") Fixture.unbound_state
    = @forwarded _ _ TI "POST" "/transactions/" (Transaction.to_dict signed)
                Fixture.unbound_state.
Proof.
  split; [ reflexivity | ].
  destruct (@transfer_burn_builds_and_signs
              _ _ TI Fixture.crypto Fixture.unbound_state
              Fixture.prior (PyStr "sk") eq_refl)
    as (unsigned & signed & _ & _ & _ & Hout & _ & Ht).
  exists signed. split; [ exact Hout | exact Ht ].
Defined.

Lemma init_rejects_bad_keys_witness :
  init [ "http://a" ] PyNone (PyStr "abc") Fixture.world0
  = (Fixture.world0, inl InvalidVerifyingKey) /\
  init [ "http://a" ] (PyInt 5) PyNone Fixture.world0
  = (Fixture.world0, inl InvalidVerifyingKey) /\
  init [ "http://a" ] (PyStr "pk") (PyInt 5) Fixture.world0
  = (Fixture.world0, inl InvalidSigningKey).
Proof.
  split; [ | split ].
  - apply (proj1 (@init_rejects_bad_keys
                    _ _ TI [ "http://a" ] PyNone (PyStr "abc")
                    Fixture.world0)); reflexivity.
  - apply (proj1 (proj2 (@init_rejects_bad_keys
                           _ _ TI [ "http://a" ] (PyInt 5) PyNone
                           Fixture.world0))); reflexivity.
  - apply (proj2 (proj2 (@init_rejects_bad_keys
                           _ _ TI [ "http://a" ] (PyStr "pk") (PyInt 5)
                           Fixture.world0)));
      [ reflexivity | reflexivity | right; reflexivity ].
Defined.

Lemma keys_resolve_with_precedence_witness :
  truthy (PyStr "sk") = true /\
  resolve_with_precedence (PyStr "sk") (PyStr "sk0") InvalidSigningKey
  = inr (PyStr "sk") /\
  truthy (PyStr "") = false /\
  resolve_with_precedence (PyStr "") (PyStr "sk0") InvalidSigningKey
  = inr (PyStr "sk0").
Proof.
  destruct (@keys_resolve_with_precedence
              _ _ TI Fixture.crypto Fixture.bound_state PyNone
              Fixture.prior [] PyNone PyNone)
    as (Hexplicit & Hbound & _).
  split; [ reflexivity | split; [ | split; [ reflexivity | ] ] ].
  - apply Hexplicit. reflexivity.
  - rewrite (Hbound (PyStr "") (PyStr "sk0") InvalidSigningKey eq_refl).
    reflexivity.
Defined.

(** Against C6 as worded: a signing key argument that is given, the empty
    string, does not take precedence; the transaction pushed is signed with
    the bound key. *)
Lemma empty_key_argument_falls_back_to_bound_key :
  is_None (PyStr "") = false /\
  requests (fst (create PyNone (PyStr "pk") (PyStr "") Fixture.bound_state))
  = [ {| method := "POST";
         path := "/transactions/";
         json := Transaction.to_dict
                   (signed_by (H := Fixture.crypto)
                              (created (PyStr "pk") PyNone)
                              (PyStr "sk0")) |} ] /\
  Transaction.signatures (signed_by (H := Fixture.crypto)
                                    (created (PyStr "pk") PyNone)
                                    (PyStr "sk0"))
  = [ "sig:sk0" ] /\
  Transaction.signatures (signed_by (H := Fixture.crypto)
                                    (created (PyStr "pk") PyNone)
                                    (PyStr ""))
  <> [ "sig:sk0" ].
Proof.
  split; [ reflexivity | split; [ reflexivity | split ] ].
  - reflexivity.
  - cbn. discriminate.
Qed.


Lemma falsy_key_is_no_key_witness :
  truthy (PyStr "") = false /\
  create PyNone (PyStr "pk") (PyStr "") Fixture.bound_state
  = create PyNone (PyStr "pk") PyNone Fixture.bound_state /\
  transfer Fixture.prior [ PyStr "pk2" ] (PyStr "") Fixture.unbound_state
  = (Fixture.unbound_state, inl InvalidSigningKey) /\
  truthy (_signing_key (driver Fixture.bound_state)) = true /\
  transfer Fixture.prior [ PyStr "pk2" ] (PyStr "") Fixture.bound_state
  = @forwarded _ _ TI "POST" "/transactions/"
      (Transaction.to_dict
         (signed_by
            (transferred (Transaction.to_inputs Fixture.prior)
                         [ PyStr "pk2" ])
            (PyStr "sk0")))
      Fixture.bound_state /\
  create PyNone (PyStr "") (PyStr "") Fixture.bound_state
  = @forwarded _ _ TI "POST" "/transactions/"
      (Transaction.to_dict
         (signed_by (created (PyStr "pk0") PyNone) (PyStr "sk0")))
      Fixture.bound_state.
Proof.
  split; [ reflexivity | split; [ | split; [ | split; [ reflexivity | ] ] ] ].
  3: {
    destruct (@falsy_key_is_no_key
                _ _ TI Fixture.crypto Fixture.bound_state PyNone
                Fixture.prior [ PyStr "pk2" ] (PyStr "") PyNone (PyStr "")
                eq_refl)
      as (_ & _ & _ & _ & _ & _ & _ & Hcreate & _ & Htransfer).
    split; [ exact (Htransfer eq_refl) | exact (Hcreate eq_refl eq_refl) ].
  }
  - exact (proj1 (@falsy_key_is_no_key
                    _ _ TI Fixture.crypto Fixture.bound_state PyNone
                    Fixture.prior [] (PyStr "pk") PyNone (PyStr "")
                    eq_refl)).
  - destruct (@falsy_key_is_no_key
                _ _ TI Fixture.crypto Fixture.unbound_state PyNone
                Fixture.prior [ PyStr "pk2" ] PyNone PyNone (PyStr "")
                eq_refl)
      as (_ & _ & _ & Hunbound & _).
    exact (proj2 (Hunbound eq_refl)).
Defined.

Lemma transfer_ignores_verifying_key_and_signs_once_witness :
  snd (transfer Fixture.prior [] (PyStr "sk") Fixture.unbound_state)
  = inl (TransportError "http://a") /\
  (TransportError "http://a" = InvalidSigningKey
   \/ exists j,
       snd (forward_request (TransportInterface := TI)
              (_transport (driver Fixture.unbound_state)) "POST"
              TransactionsEndpoint.path j (world Fixture.unbound_state))
       = inl (TransportError "http://a")).
Proof.
  split; [ reflexivity | ].
  apply (proj2 (proj2 (@transfer_ignores_verifying_key_and_signs_once
                         _ _ TI Fixture.crypto Fixture.unbound_state
                         Fixture.prior [] (PyStr "sk") PyNone))).
  reflexivity.
Defined.

End Examples.

(** * Further properties of the driver *)

Section DriverLaws.
Import Driver Spec Observations.
Context {W T : Type} {TI : TransportInterface W T} {CR : Crypto}.
Implicit Types (s : @State W T) (payload vk sk k : PyVal) (w : W).

(** The constructor, with its checks spelled out. *)
Lemma init_eq (nodes_ : list string) vk sk w :
  __init__ nodes_ vk sk w =
  if keys_accepted vk sk then
    match transport_class nodes_ w with
    | (w', inl e) => (w', inl e)
    | (w', inr tr) =>
        (w', inr {| _verifying_key := vk;
                    _signing_key := sk;
                    _transport := tr;
                    _nodes := nodes tr |})
    end
  else
    (w, inl (if (is_None vk || isinstance_str vk)
                && negb (isinstance_str sk)
             then InvalidSigningKey
             else InvalidVerifyingKey)).
Proof.
  unfold __init__, keys_accepted, bind, raise, ret.
  destruct vk, sk; cbn;
    destruct (transport_class nodes_ w) as [w' [e | tr]]; reflexivity.
Qed.

Lemma keys_accepted_well_keyed vk sk (tr : T) (ns : list string) :
  keys_accepted vk sk = true ->
  well_keyed {| _verifying_key := vk; _signing_key := sk;
                _transport := tr; _nodes := ns |} = true.
Proof.
  unfold keys_accepted, well_keyed. cbn.
  destruct vk, sk; cbn; intros E; (reflexivity || discriminate E).
Qed.

Lemma init_well_keyed (nodes_ : list string) vk sk w w' (d : @BigchainDB T) :
  __init__ nodes_ vk sk w = (w', inr d) -> well_keyed d = true.
Proof.
  rewrite init_eq.
  destruct (keys_accepted vk sk) eqn:Hacc; [ | discriminate ].
  destruct (transport_class nodes_ w) as [w1 [e | tr]]; [ discriminate | ].
  intros E. injection E as _ <-.
  apply keys_accepted_well_keyed. exact Hacc.
Qed.

(** X1: a driver that the constructor returns holds keys that are [None] or
    strings, and holds a signing key only together with a string verifying
    key; this stays so after any sequence of [create], [transfer],
    [retrieve] and [status] calls. *)
Theorem constructed_driver_stays_well_keyed
        (nodes_ : list string) vk sk w w' (d : @BigchainDB T)
        (cs : list Call) :
  __init__ nodes_ vk sk w = (w', inr d) ->
  well_keyed d = true /\
  well_keyed (driver (run cs (fresh_state d w'))) = true.
Proof.
  intros Hinit.
  assert (Hd : well_keyed d = true) by (eapply init_well_keyed; eassumption).
  split; [ exact Hd | ].
  rewrite run_driver. exact Hd.
Qed.

(** X2: the constructor lets through exactly the keys where the verifying
    key is [None] or a string and the signing key is [None], or a string
    given with a verifying key.  With such keys it instantiates the
    transport class on the nodes and fails only if that fails; with any
    other keys it raises [InvalidSigningKey] (verifying key in order, signing
    key not a string) or [InvalidVerifyingKey], leaving the state as it
    was. *)
Theorem init_accepts_exactly_valid_keys (nodes_ : list string) vk sk w :
  (keys_accepted vk sk = true ->
   __init__ nodes_ vk sk w
   = match transport_class nodes_ w with
     | (w', inl e) => (w', inl e)
     | (w', inr tr) =>
         (w', inr {| _verifying_key := vk;
                     _signing_key := sk;
                     _transport := tr;
                     _nodes := nodes tr |})
     end) /\
  (keys_accepted vk sk = false ->
   __init__ nodes_ vk sk w
   = (w, inl (if (is_None vk || isinstance_str vk)
                 && negb (isinstance_str sk)
              then InvalidSigningKey
              else InvalidVerifyingKey))).
Proof.
  rewrite init_eq. split; intros ->; reflexivity.
Qed.

Lemma truthy_usable (v : PyVal) :
  is_None v || isinstance_str v = true -> truthy v = usable v.
Proof. destruct v; cbn; intros E; (reflexivity || discriminate E). Qed.

Lemma well_keyed_truthy (d : @BigchainDB T) :
  well_keyed d = true ->
  truthy (_signing_key d) = usable (_signing_key d) /\
  truthy (_verifying_key d) = usable (_verifying_key d).
Proof.
  unfold well_keyed. intros Hk.
  apply andb_prop in Hk. destruct Hk as [Hk _].
  apply andb_prop in Hk. destruct Hk as [Hv Hs].
  split; apply truthy_usable; assumption.
Qed.

Lemma create_defaults_eq s payload :
  well_keyed (driver s) = true ->
  TransactionsEndpoint.create payload PyNone PyNone s
  = if usable (_signing_key (driver s)) then
      if usable (_verifying_key (driver s)) then
        forwarded "POST" TransactionsEndpoint.path
          (Transaction.to_dict
             (signed_by (created (_verifying_key (driver s)) payload)
                        (_signing_key (driver s)))) s
      else (s, inl InvalidVerifyingKey)
    else (s, inl InvalidSigningKey).
Proof.
  intros Hk. destruct (well_keyed_truthy _ Hk) as [Hs Hv].
  rewrite create_eq. cbv zeta. rewrite !effective_key_None.
  rewrite Hs, Hv. reflexivity.
Qed.

(** X3: on a driver whose bound keys are [None] or strings (every
    constructed driver), a [create] without per-call keys pushes exactly
    when both bound keys are non-empty strings, and a [transfer] without a
    per-call signing key exactly when the bound signing key is one.  A bound
    empty string, which the constructor accepts, counts as no key: the call
    raises [InvalidSigningKey], or [InvalidVerifyingKey] when only the
    verifying key fails, and nothing is sent. *)
Theorem bound_keys_work_iff_nonempty
        s payload (tx : Transaction.t) (owners : list PyVal) :
  well_keyed (driver s) = true ->
  TransactionsEndpoint.create payload PyNone PyNone s
  = (if usable (_signing_key (driver s)) then
       if usable (_verifying_key (driver s)) then
         forwarded "POST" TransactionsEndpoint.path
           (Transaction.to_dict
              (signed_by (created (_verifying_key (driver s)) payload)
                         (_signing_key (driver s)))) s
       else (s, inl InvalidVerifyingKey)
     else (s, inl InvalidSigningKey)) /\
  TransactionsEndpoint.transfer tx owners PyNone s
  = (if usable (_signing_key (driver s)) then
       forwarded "POST" TransactionsEndpoint.path
         (Transaction.to_dict
            (signed_by (transferred (Transaction.to_inputs tx) owners)
                       (_signing_key (driver s)))) s
     else (s, inl InvalidSigningKey)).
Proof.
  intros Hk. split; [ apply create_defaults_eq; exact Hk | ].
  destruct (well_keyed_truthy _ Hk) as [Hs _].
  rewrite transfer_eq. cbv zeta. rewrite effective_key_None, Hs.
  reflexivity.
Qed.

Lemma endpoint_request_post (j : PyVal) :
  endpoint_request {| method := "POST"; path := "/transactions/";
                      json := j |} = true.
Proof. reflexivity. Qed.

Lemma endpoint_request_get (rest : string) :
  endpoint_request {| method := "GET";
                      path := ("/transactions/" ++ rest)%string;
                      json := PyNone |} = true.
Proof. destruct rest; reflexivity. Qed.

Lemma forwarded_requests s m p j :
  requests (fst (forwarded m p j s))
  = requests s ++ [ {| method := m; path := p; json := j |} ].
Proof. reflexivity. Qed.

(** One call hands [forward_request] at most one request, of the two
    kinds the endpoint makes. *)
Lemma perform_requests (c : Call) s :
  exists new,
    requests (fst (perform c s)) = requests s ++ new /\
    length new <= 1 /\
    forallb endpoint_request new = true.
Proof.
  assert (Hnone : exists new, requests s = requests s ++ new /\
                              length new <= 1 /\
                              forallb endpoint_request new = true).
  { exists []. rewrite app_nil_r. cbn. repeat split. lia. }
  assert (Hone : forall r, endpoint_request r = true ->
                           exists new,
                             requests s ++ [r] = requests s ++ new /\
                             length new <= 1 /\
                             forallb endpoint_request new = true).
  { intros r Hr. exists [r]. cbn [forallb length]. rewrite Hr.
    repeat split. lia. }
  destruct c as [p vk sk | tx owners sk | txid | txid]; cbn [perform].
  - rewrite create_eq. cbv zeta.
    destruct (truthy (effective_key sk _)); [ | exact Hnone ].
    destruct (truthy (effective_key vk _)); [ | exact Hnone ].
    rewrite forwarded_requests. apply Hone, endpoint_request_post.
  - rewrite transfer_eq. cbv zeta.
    destruct (truthy (effective_key sk _)); [ | exact Hnone ].
    rewrite forwarded_requests. apply Hone, endpoint_request_post.
  - rewrite retrieve_eq, forwarded_requests.
    apply Hone, endpoint_request_get.
  - rewrite status_eq, forwarded_requests.
    apply Hone, endpoint_request_get.
Qed.

(** X4: whatever sequence of [create], [transfer], [retrieve] and [status]
    calls is made, with whatever arguments, the requests handed to
    [forward_request] before are kept in order, at most one request is added
    per call, and every added request is a POST on [/transactions/] or a GET
    without body on a path that starts with [/transactions/]. *)
Theorem only_transactions_requests (cs : list Call) s :
  exists new,
    requests (run cs s) = requests s ++ new /\
    length new <= length cs /\
    forallb endpoint_request new = true.
Proof.
  revert s. induction cs as [ | c cs IH ]; intros s.
  - exists []. rewrite app_nil_r. cbn. repeat split. lia.
  - destruct (perform_requests c s) as [n1 [H1 [L1 F1]]].
    destruct (IH (fst (perform c s))) as [n2 [H2 [L2 F2]]].
    exists (n1 ++ n2).
    change (run (c :: cs) s) with (run cs (fst (perform c s))).
    rewrite H2, H1, <- app_assoc.
    split; [ reflexivity | split ].
    + rewrite length_app. cbn [length]. lia.
    + rewrite forallb_app, F1, F2. reflexivity.
Qed.

Lemma effective_key_self (b : PyVal) : effective_key b b = b.
Proof. unfold effective_key. destruct (truthy b); reflexivity. Qed.

(** X5: handing [create] or [transfer] the keys bound on the driver as
    per-call arguments is the same as handing none, whether those keys are
    usable or not. *)
Theorem explicit_bound_keys_change_nothing
        s payload (tx : Transaction.t) (owners : list PyVal) :
  TransactionsEndpoint.create payload (_verifying_key (driver s))
                              (_signing_key (driver s)) s
  = TransactionsEndpoint.create payload PyNone PyNone s /\
  TransactionsEndpoint.transfer tx owners (_signing_key (driver s)) s
  = TransactionsEndpoint.transfer tx owners PyNone s.
Proof.
  rewrite !create_eq, !transfer_eq. cbv zeta.
  rewrite !effective_key_self, !effective_key_None.
  split; reflexivity.
Qed.

(** X6: [temp_driver] binds the generated pair the right way round.  When
    the generator gives strings [(sk, vk)], no key error is raised: the
    transport class is instantiated on the one node and the driver returned
    has [vk] as verifying key and [sk] as signing key.  When the generator
    raises, so does [temp_driver], and no transport is made. *)
Theorem temp_driver_binds_generated_keys
        (generate_keypair : M W (PyVal * PyVal)) (node : string) w :
  (forall w1 (sk vk : string),
      generate_keypair w = (w1, inr (PyStr sk, PyStr vk)) ->
      temp_driver generate_keypair node w
      = match transport_class [node] w1 with
        | (w2, inl e) => (w2, inl e)
        | (w2, inr tr) =>
            (w2, inr {| _verifying_key := PyStr vk;
                        _signing_key := PyStr sk;
                        _transport := tr;
                        _nodes := nodes tr |})
        end) /\
  (forall w1 e,
      generate_keypair w = (w1, inl e) ->
      temp_driver generate_keypair node w = (w1, inl e)).
Proof.
  split.
  - intros w1 sk vk Hgen. unfold temp_driver, bind. rewrite Hgen.
    rewrite init_eq. reflexivity.
  - intros w1 e Hgen. unfold temp_driver, bind. rewrite Hgen. reflexivity.
Qed.

(** X7: a temporary driver made from non-empty generated strings [(sk, vk)]
    can create at once: [create] without per-call keys pushes a CREATE
    transaction owned by [vk] and signed with [sk]. *)
Theorem temp_driver_can_create
        (generate_keypair : M W (PyVal * PyVal)) (node : string) w w1 w2
        (sk vk : string) (tr : T) payload :
  generate_keypair w = (w1, inr (PyStr sk, PyStr vk)) ->
  transport_class [node] w1 = (w2, inr tr) ->
  sk <> "" -> vk <> "" ->
  exists d,
    temp_driver generate_keypair node w = (w2, inr d) /\
    _transport d = tr /\
    TransactionsEndpoint.create payload PyNone PyNone (fresh_state d w2)
    = forwarded "POST" TransactionsEndpoint.path
        (Transaction.to_dict
           (signed_by (created (PyStr vk) payload) (PyStr sk)))
        (fresh_state d w2).
Proof.
  intros Hgen Htr Hsk Hvk.
  eexists. split; [ | split ].
  - unfold temp_driver, bind. rewrite Hgen. rewrite init_eq.
    cbn [keys_accepted is_None isinstance_str orb andb negb].
    rewrite Htr. reflexivity.
  - reflexivity.
  - rewrite create_eq. cbv zeta. rewrite !effective_key_None.
    cbn [fresh_state driver _signing_key _verifying_key truthy].
    apply String.eqb_neq in Hsk. apply String.eqb_neq in Hvk.
    rewrite Hsk, Hvk. reflexivity.
Qed.

(** X8: [retrieve] and [status] do not look at the bound keys: with any
    other keys bound, the unbound driver included, they return the same
    result and leave the same transport state and the same requests. *)
Theorem reads_ignore_keys s (txid : string) (v k : PyVal) :
  (snd (TransactionsEndpoint.retrieve txid (with_keys v k s))
   = snd (TransactionsEndpoint.retrieve txid s) /\
   world (fst (TransactionsEndpoint.retrieve txid (with_keys v k s)))
   = world (fst (TransactionsEndpoint.retrieve txid s)) /\
   requests (fst (TransactionsEndpoint.retrieve txid (with_keys v k s)))
   = requests (fst (TransactionsEndpoint.retrieve txid s))) /\
  (snd (TransactionsEndpoint.status txid (with_keys v k s))
   = snd (TransactionsEndpoint.status txid s) /\
   world (fst (TransactionsEndpoint.status txid (with_keys v k s)))
   = world (fst (TransactionsEndpoint.status txid s)) /\
   requests (fst (TransactionsEndpoint.status txid (with_keys v k s)))
   = requests (fst (TransactionsEndpoint.status txid s))).
Proof.
  rewrite !retrieve_eq, !status_eq. repeat split.
Qed.

(** X9: per-call keys do not leak into later calls.  After any sequence of
    calls, whatever keys they were given, a [create] or [transfer] without
    per-call keys resolves to the keys that were bound before the
    sequence. *)
Theorem per_call_keys_do_not_leak
        (cs : list Call) s payload (tx : Transaction.t)
        (owners : list PyVal) :
  TransactionsEndpoint.create payload PyNone PyNone (run cs s)
  = (if truthy (_signing_key (driver s)) then
       if truthy (_verifying_key (driver s)) then
         forwarded "POST" TransactionsEndpoint.path
           (Transaction.to_dict
              (signed_by (created (_verifying_key (driver s)) payload)
                         (_signing_key (driver s)))) (run cs s)
       else (run cs s, inl InvalidVerifyingKey)
     else (run cs s, inl InvalidSigningKey)) /\
  TransactionsEndpoint.transfer tx owners PyNone (run cs s)
  = (if truthy (_signing_key (driver s)) then
       forwarded "POST" TransactionsEndpoint.path
         (Transaction.to_dict
            (signed_by (transferred (Transaction.to_inputs tx) owners)
                       (_signing_key (driver s)))) (run cs s)
     else (run cs s, inl InvalidSigningKey)).
Proof.
  rewrite create_eq, transfer_eq. cbv zeta.
  rewrite !effective_key_None, !run_driver. split; reflexivity.
Qed.

Lemma append_inj_l (p a b : string) :
  (p ++ a)%string = (p ++ b)%string -> a = b.
Proof.
  induction p as [ | c p IH ]; cbn; intros E.
  - exact E.
  - injection E as E. apply IH. exact E.
Qed.

Lemma append_length (a b : string) :
  String.length (a ++ b) = String.length a + String.length b.
Proof.
  induction a as [ | c a IH ]; cbn; [ reflexivity | ].
  rewrite IH. reflexivity.
Qed.

Lemma append_inj_r (c : string) :
  forall a b : string, (a ++ c)%string = (b ++ c)%string -> a = b.
Proof.
  induction a as [ | x a IH ]; intros [ | y b ] E.
  - reflexivity.
  - apply (f_equal String.length) in E. cbn in E.
    rewrite append_length in E. lia.
  - apply (f_equal String.length) in E. cbn in E.
    rewrite append_length in E. lia.
  - cbn in E. injection E as -> E. f_equal. apply IH. exact E.
Qed.

Lemma last_request_eq s s' m p j m' p' j' :
  requests (fst (forwarded m p j s))
  = requests (fst (forwarded m' p' j' s')) ->
  requests s = requests s' ->
  p = p'.
Proof.
  rewrite !forwarded_requests. intros E Hs. rewrite Hs in E.
  apply app_inv_head in E. injection E as _ Hp _. exact Hp.
Qed.

(** X10: the request of a read tells the transaction id.  From one state,
    [retrieve] of two ids hands [forward_request] the same request only for
    the same id, and so does [status]; [retrieve(a)] and [status(b)] make
    the same request exactly when [a] is [b] followed by [/status]. *)
Theorem read_requests_tell_the_txid s (a b : string) :
  (requests (fst (TransactionsEndpoint.retrieve a s))
   = requests (fst (TransactionsEndpoint.retrieve b s)) -> a = b) /\
  (requests (fst (TransactionsEndpoint.status a s))
   = requests (fst (TransactionsEndpoint.status b s)) -> a = b) /\
  (requests (fst (TransactionsEndpoint.retrieve a s))
   = requests (fst (TransactionsEndpoint.status b s))
   <-> a = (b ++ "/status")%string).
Proof.
  rewrite !retrieve_eq, !status_eq.
  split; [ | split; [ | split ] ].
  - intros E. eapply append_inj_l.
    eapply last_request_eq; [ exact E | reflexivity ].
  - intros E. eapply append_inj_r, append_inj_l.
    eapply last_request_eq; [ exact E | reflexivity ].
  - intros E. eapply append_inj_l.
    eapply last_request_eq; [ exact E | reflexivity ].
  - intros ->. reflexivity.
Qed.

End DriverLaws.

(** * The further properties on concrete calls *)

Module MoreExamples.
Import Driver Spec Observations Examples.
#[local] Existing Instance Fixture.crypto.

Lemma constructed_driver_stays_well_keyed_witness :
  init [ "http://a"; "http://b" ] (PyStr "pk") (PyStr "sk") Fixture.world0
  = (Fixture.world0, inr (driver (Fixture.state (PyStr "pk") (PyStr "sk"))))
  /\
  well_keyed
    (driver (run (H := TI) (H0 := Fixture.crypto)
                 [ Create PyNone (PyInt 7) (PyInt 7); Status "abc" ]
                 (fresh_state
                    (driver (Fixture.state (PyStr "pk") (PyStr "sk")))
                    Fixture.world0)))
  = true.
Proof.
  split; [ reflexivity | ].
  exact (proj2 (@constructed_driver_stays_well_keyed
                  _ _ TI Fixture.crypto
                  [ "http://a"; "http://b" ] (PyStr "pk") (PyStr "sk")
                  Fixture.world0 Fixture.world0 _
                  [ Create PyNone (PyInt 7) (PyInt 7); Status "abc" ]
                  eq_refl)).
Defined.

Lemma init_accepts_exactly_valid_keys_witness :
  (keys_accepted (PyStr "pk") PyNone = true /\
   init [ "http://a"; "http://b" ] (PyStr "pk") PyNone Fixture.world0
   = (Fixture.world0, inr (driver (Fixture.state (PyStr "pk") PyNone)))) /\
  (keys_accepted (PyBool true) (PyStr "sk") = false /\
   init [ "http://a" ] (PyBool true) (PyStr "sk") Fixture.world0
   = (Fixture.world0, inl InvalidVerifyingKey)).
Proof.
  split; (split; [ reflexivity | ]).
  - exact (proj1 (@init_accepts_exactly_valid_keys
                    _ _ TI [ "http://a"; "http://b" ] (PyStr "pk") PyNone
                    Fixture.world0) eq_refl).
  - exact (proj2 (@init_accepts_exactly_valid_keys
                    _ _ TI [ "http://a" ] (PyBool true) (PyStr "sk")
                    Fixture.world0) eq_refl).
Defined.

Lemma bound_keys_work_iff_nonempty_witness :
  well_keyed (driver (Fixture.state (PyStr "pk") (PyStr ""))) = true /\
  create PyNone PyNone PyNone (Fixture.state (PyStr "pk") (PyStr ""))
  = (Fixture.state (PyStr "pk") (PyStr ""), inl InvalidSigningKey) /\
  transfer Fixture.prior [] PyNone (Fixture.state (PyStr "pk") (PyStr ""))
  = (Fixture.state (PyStr "pk") (PyStr ""), inl InvalidSigningKey).
Proof.
  split; [ reflexivity | ].
  exact (@bound_keys_work_iff_nonempty
           _ _ TI Fixture.crypto (Fixture.state (PyStr "pk") (PyStr ""))
           PyNone Fixture.prior [] eq_refl).
Defined.

Lemma temp_driver_binds_generated_keys_witness :
  fixed_keypair "sk1" "pk1" Fixture.world0
  = (Fixture.world0, inr (PyStr "sk1", PyStr "pk1")) /\
  temp_driver (H := TI) (fixed_keypair "sk1" "pk1") "http://b"
              Fixture.world0
  = (Fixture.world0,
     inr {| _verifying_key := PyStr "pk1";
            _signing_key := PyStr "sk1";
            _transport := {| Transport.pool := [ "http://b" ];
                             Transport.attempt_ceiling := 2 |};
            _nodes := [ "http://b" ] |}).
Proof.
  split; [ reflexivity | ].
  exact (proj1 (@temp_driver_binds_generated_keys
                  _ _ TI (fixed_keypair "sk1" "pk1") "http://b"
                  Fixture.world0)
               Fixture.world0 "sk1" "pk1" eq_refl).
Defined.

Lemma temp_driver_can_create_witness :
  "sk1" <> "" /\ "pk1" <> "" /\
  exists d,
    temp_driver (H := TI) (fixed_keypair "sk1" "pk1") "http://b"
                Fixture.world0
    = (Fixture.world0, inr d) /\
    snd (create (PyStr "asset") PyNone PyNone
                (fresh_state d Fixture.world0))
    = inr (PyDict [ ("url", PyStr "http://b/transactions/") ]).
Proof.
  assert (Hsk : "sk1" <> "") by discriminate.
  assert (Hpk : "pk1" <> "") by discriminate.
  split; [ exact Hsk | split; [ exact Hpk | ] ].
  destruct (@temp_driver_can_create
              _ _ TI Fixture.crypto (fixed_keypair "sk1" "pk1") "http://b"
              Fixture.world0 Fixture.world0 Fixture.world0 "sk1" "pk1"
              {| Transport.pool := [ "http://b" ];
                 Transport.attempt_ceiling := 2 |}
              (PyStr "asset") eq_refl eq_refl Hsk Hpk)
    as (d & Hd & Htr & Hc).
  exists d. split; [ exact Hd | ].
  rewrite Hc. unfold forwarded. cbn [snd fresh_state driver world].
  rewrite Htr. reflexivity.
Defined.

Lemma read_requests_tell_the_txid_witness :
  requests (fst (retrieve "abc/status" Fixture.unbound_state))
  = requests (fst (@TransactionsEndpoint.status
                     _ _ TI "abc" Fixture.unbound_state)) /\
  "abc/status" = ("abc" ++ "/status")%string.
Proof.
  split; [ reflexivity | ].
  exact (proj1 (proj2 (proj2 (@read_requests_tell_the_txid
                                _ _ TI Fixture.unbound_state
                                "abc/status" "abc")))
               eq_refl).
Defined.

End MoreExamples.
